(** * The MNIST network-API sample (samples/python/network_api_pytorch_mnist/sample.py)

    A shallow embedding of the sample's functions, [populate_network],
    [build_engine], [load_random_test_case] and [main], and the properties of
    the driver that follow from the code.

    The sample is glue code: every numeric step is a call into TensorRT,
    PyTorch, NumPy or the samples' [common] and [model] modules.  Those calls
    are the fields of a [Library] record; the sample's own control flow, its
    dictionary look-ups, its attribute assignments, its file traffic and the
    order of its calls are modelled as written. *)

From Stdlib Require Import ZArith List String Ascii Strings.Byte DecimalString.
From stdpp Require Import gmap strings list.

Open Scope Z_scope.
Open Scope string_scope.
Open Scope list_scope.

(** ** Python outcomes *)

(** The exceptions the sample can meet, by their Python class. *)
Inductive Exn : Type :=
| KeyError (key : string)
| AttributeError (what : string)
| TypeError (what : string)
| ValueError (what : string)
| IndexError (what : string)
| FileNotFoundError (path : string)
| LibraryError (what : string).

Inductive result (A : Type) : Type :=
| Ok (a : A)
| Raise (e : Exn).
Arguments Ok {A} a.
Arguments Raise {A} e.

Definition is_Ok {A} (r : result A) : bool :=
  match r with Ok _ => true | Raise _ => false end.

(** A statement sequence over a mutable object or world of type [S]: the
    state survives an exception, as a Python object keeps what was done to it
    before the raise. *)
Definition Prog (S A : Type) : Type := S -> result A * S.

Definition ret {S A} (a : A) : Prog S A := fun s => (Ok a, s).
Definition raise {S A} (e : Exn) : Prog S A := fun s => (Raise e, s).
Definition bind {S A B} (p : Prog S A) (k : A -> Prog S B) : Prog S B :=
  fun s => match p s with
           | (Ok a, s') => k a s'
           | (Raise e, s') => (Raise e, s')
           end.
Definition get {S} : Prog S S := fun s => (Ok s, s).
Definition modify {S} (f : S -> S) : Prog S unit := fun s => (Ok tt, f s).
Definition of_result {S A} (r : result A) : Prog S A := fun s => (r, s).

(** Run a statement sequence on an object held in a local variable. *)
Definition on_object {S T A} (obj : T) (p : Prog T A) : Prog S (A * T) :=
  fun s => match p obj with
           | (Ok a, obj') => (Ok (a, obj'), s)
           | (Raise e, _) => (Raise e, s)
           end.

Declare Scope prog_scope.
Delimit Scope prog_scope with prog.
Notation "x <- p ;; k" := (bind p (fun x => k))
  (at level 100, p at next level, right associativity) : prog_scope.
Notation "p ;; k" := (bind p (fun _ => k))
  (at level 100, right associativity) : prog_scope.
Open Scope prog_scope.

(** ** TensorRT's network definition, as the calls recorded on it *)

(** [trt.DataType]. *)
Inductive DataType : Type := float32 | float16 | int8 | int32 | bool8.

Inductive PoolingType : Type := MAX | AVERAGE | MAX_AVERAGE_BLEND.

Inductive ActivationType : Type := RELU | SIGMOID | TANH.

(** An [ITensor] handle: a network input, or an output of a layer; layers are
    numbered in the order they were added. *)
Inductive ITensor : Type :=
| NetInput (i : nat)
| LayerOutput (layer : nat) (index : nat).

(** ** [ModelData] *)

Module ModelData.
Definition INPUT_NAME : string := "data".
Definition INPUT_SHAPE : list Z := [1; 1; 28; 28].
Definition OUTPUT_NAME : string := "prob".
Definition OUTPUT_SIZE : Z := 10.
Definition DTYPE : DataType := float32.
End ModelData.

Section Sample.

(** The element type of the arrays (single-precision numbers in the sample);
    the sample never looks inside a weight array. *)
Context {Scalar Engine Model : Type}.

(** A weight array: what [weights[k].cpu().numpy()] hands to the builder. *)
Record Tensor : Type := { t_shape : list Z; t_data : list Scalar }.

(** The Weight Set: PyTorch's [state_dict], a dictionary by tensor name. *)
Abbreviation Weights := (gmap string Tensor).

Inductive LayerOp : Type :=
| Convolution (num_output_maps : Z) (kernel_shape : Z * Z) (kernel bias : Tensor)
| Pooling (type : PoolingType) (window_size : Z * Z)
| FullyConnected (num_outputs : Z) (kernel bias : Tensor)
| Activation (type : ActivationType).

(** A layer as the network holds it.  [l_stride] is the [stride] attribute,
    which convolution and pooling layers have; [l_output_name] is the name
    given to output 0, [None] while it keeps the library's default name. *)
Record ILayer : Type := {
  l_op : LayerOp;
  l_input : ITensor;
  l_stride : option (Z * Z);
  l_output_name : option string
}.

Record InputSpec : Type := {
  in_name : string;
  in_dtype : DataType;
  in_shape : list Z
}.

(** [INetworkDefinition]: the inputs added, the layers added and the tensors
    marked as outputs, each in call order. *)
Record INetworkDefinition : Type := {
  net_flags : Z;
  net_inputs : list InputSpec;
  net_layers : list ILayer;
  net_outputs : list ITensor
}.

Definition set_layers (f : list ILayer -> list ILayer) (n : INetworkDefinition)
  : INetworkDefinition :=
  {| net_flags := net_flags n; net_inputs := net_inputs n;
     net_layers := f (net_layers n); net_outputs := net_outputs n |}.

(** [builder.create_network(flags)]: an empty network. *)
Definition create_network (flags : Z) : INetworkDefinition :=
  {| net_flags := flags; net_inputs := []; net_layers := []; net_outputs := [] |}.

(** A layer object in Python is a handle on a layer of the network. *)
Definition LayerHandle : Type := nat.

(** The library's stride before the sample assigns one. *)
Definition default_stride (op : LayerOp) : option (Z * Z) :=
  match op with
  | Convolution _ _ _ _ | Pooling _ _ => Some (1, 1)
  | FullyConnected _ _ _ | Activation _ => None
  end.

Definition add_layer (op : LayerOp) (input : ITensor)
  : Prog INetworkDefinition LayerHandle :=
  fun n =>
    (Ok (length (net_layers n)),
     set_layers (fun ls => ls ++ [ {| l_op := op; l_input := input;
                                      l_stride := default_stride op;
                                      l_output_name := None |} ]) n).

Definition add_input (name : string) (dtype : DataType) (shape : list Z)
  : Prog INetworkDefinition ITensor :=
  fun n =>
    (Ok (NetInput (length (net_inputs n))),
     {| net_flags := net_flags n;
        net_inputs := net_inputs n ++ [ {| in_name := name; in_dtype := dtype;
                                           in_shape := shape |} ];
        net_layers := net_layers n; net_outputs := net_outputs n |}).

Definition add_convolution (input : ITensor) (num_output_maps : Z)
    (kernel_shape : Z * Z) (kernel bias : Tensor) :=
  add_layer (Convolution num_output_maps kernel_shape kernel bias) input.

Definition add_pooling (input : ITensor) (type : PoolingType) (window_size : Z * Z) :=
  add_layer (Pooling type window_size) input.

Definition add_fully_connected (input : ITensor) (num_outputs : Z)
    (kernel bias : Tensor) :=
  add_layer (FullyConnected num_outputs kernel bias) input.

Definition add_activation (input : ITensor) (type : ActivationType) :=
  add_layer (Activation type) input.

(** [layer.stride = s]: only convolution and pooling layers carry the
    attribute. *)
Definition set_stride (h : LayerHandle) (s : Z * Z) : Prog INetworkDefinition unit :=
  fun n =>
    match net_layers n !! h with
    | Some l =>
        match l_stride l with
        | Some _ =>
            (Ok tt, set_layers (fun ls => <[ h := {| l_op := l_op l; l_input := l_input l;
                                                     l_stride := Some s;
                                                     l_output_name := l_output_name l |} ]> ls) n)
        | None => (Raise (AttributeError "stride"), n)
        end
    | None => (Raise (AttributeError "stride"), n)
    end.

(** [layer.get_output(i)]: every layer of the sample has one output, number 0;
    past it the library returns [None]. *)
Definition get_output (h : LayerHandle) (i : nat) : option ITensor :=
  match i with O => Some (LayerOutput h 0) | S _ => None end.

(** [tensor.name = s], for [tensor] that may be [None]. *)
Definition set_name (t : option ITensor) (s : string) : Prog INetworkDefinition unit :=
  fun n =>
    match t with
    | Some (LayerOutput h O) =>
        match net_layers n !! h with
        | Some l =>
            (Ok tt, set_layers (fun ls => <[ h := {| l_op := l_op l; l_input := l_input l;
                                                     l_stride := l_stride l;
                                                     l_output_name := Some s |} ]> ls) n)
        | None => (Raise (AttributeError "name"), n)
        end
    | _ => (Raise (AttributeError "name"), n)
    end.

(** An argument of tensor type that is [None] is refused by the binding. *)
Definition the_tensor {S} (t : option ITensor) : Prog S ITensor :=
  match t with
  | Some x => ret x
  | None => raise (TypeError "ITensor")
  end.

Definition mark_output (tensor : option ITensor) : Prog INetworkDefinition unit :=
  t <- the_tensor tensor ;;
  fun n =>
    (Ok tt, {| net_flags := net_flags n; net_inputs := net_inputs n;
               net_layers := net_layers n; net_outputs := net_outputs n ++ [t] |}).

(** [weights[k].cpu().numpy()]: the dictionary look-up raises [KeyError] on an
    absent name; the conversion keeps shape and contents. *)
Definition getitem {S} (weights : Weights) (k : string) : Prog S Tensor :=
  match weights !! k with
  | Some t => ret t
  | None => raise (KeyError k)
  end.

(** ** [populate_network] *)

Definition populate_network (weights : Weights) : Prog INetworkDefinition unit :=
  input_tensor <- add_input ModelData.INPUT_NAME ModelData.DTYPE ModelData.INPUT_SHAPE ;;

  conv1_w <- getitem weights "conv1.weight" ;;
  conv1_b <- getitem weights "conv1.bias" ;;
  conv1 <- add_convolution input_tensor 20 (5, 5) conv1_w conv1_b ;;
  set_stride conv1 (1, 1) ;;

  pool1_in <- the_tensor (get_output conv1 0) ;;
  pool1 <- add_pooling pool1_in MAX (2, 2) ;;
  set_stride pool1 (2, 2) ;;

  conv2_w <- getitem weights "conv2.weight" ;;
  conv2_b <- getitem weights "conv2.bias" ;;
  conv2_in <- the_tensor (get_output pool1 0) ;;
  conv2 <- add_convolution conv2_in 50 (5, 5) conv2_w conv2_b ;;
  set_stride conv2 (1, 1) ;;

  pool2_in <- the_tensor (get_output conv2 0) ;;
  pool2 <- add_pooling pool2_in MAX (2, 2) ;;
  set_stride pool2 (2, 2) ;;

  fc1_w <- getitem weights "fc1.weight" ;;
  fc1_b <- getitem weights "fc1.bias" ;;
  fc1_in <- the_tensor (get_output pool2 0) ;;
  fc1 <- add_fully_connected fc1_in 500 fc1_w fc1_b ;;

  relu1_in <- the_tensor (get_output fc1 0) ;;
  relu1 <- add_activation relu1_in RELU ;;

  fc2_w <- getitem weights "fc2.weight" ;;
  fc2_b <- getitem weights "fc2.bias" ;;
  fc2_in <- the_tensor (get_output relu1 0) ;;
  fc2 <- add_fully_connected fc2_in ModelData.OUTPUT_SIZE fc2_w fc2_b ;;

  set_name (get_output fc2 0) ModelData.OUTPUT_NAME ;;
  mark_output (get_output fc2 0).

(** ** The libraries the sample calls *)

(** [IBuilderConfig], of which the sample touches one attribute. *)
Record IBuilderConfig : Type := { max_workspace_size : Z }.

(** An engine binding as [common.allocate_buffers] reads it: input or output,
    and its volume in elements. *)
Record Binding : Type := { b_is_input : bool; b_size : nat }.

(** [common.HostDeviceMem]: a page-locked host array and a device buffer, both
    by address; the host arrays live in the world's [w_arrays]. *)
Record HostDeviceMem : Type := { host : nat; device : nat }.

Record IExecutionContext : Type := { ctx_engine : Engine }.

(** What the imported modules do when called, each call a function of its
    arguments.  A library call that returns Python's [None] on failure has an
    [option]; one that raises has a [result]. *)
Record Library : Type := {
  trt_version : string;
  builder_build_engine : INetworkDefinition -> IBuilderConfig -> option Engine;
  builder_build_serialized_network :
    INetworkDefinition -> IBuilderConfig -> option (list byte);
  runtime_deserialize_cuda_engine : list byte -> option Engine;
  engine_serialize : Engine -> list byte;
  engine_bindings : Engine -> list Binding;
  context_execute : Engine -> list (list Scalar) -> result (list (list Scalar));
  default_workspace_size : Z;
  model_MnistModel : result Model;
  model_learn : Model -> result Model;
  model_get_weights : Model -> result Weights;
  model_get_random_testcase : Model -> N -> result (list Scalar * Z);
  common_EXPLICIT_BATCH : Z;
  common_add_help : string -> result unit;
  numpy_le : Scalar -> Scalar -> bool;
  pagelocked_empty : Scalar
}.

(** ** The world: what the process does that can be observed *)

(** One event per call the sample makes, logged when the call starts.  The
    calls on the network object are not events of their own: the network
    records them, and [EvPopulateNetwork] marks where they happen.
    [EvCompare] is the event of a comparison of the predicted class with the
    expected label ([pred == case_num]), the one step of the driver that the
    spec names and for which the sample has no statement. *)
Inductive Event : Type :=
| EvAddHelp (description : string)
| EvMnistModel
| EvLearn
| EvGetWeights
| EvBuilder
| EvCreateNetwork (flags : Z)
| EvCreateBuilderConfig
| EvRuntime
| EvPopulateNetwork
| EvBuildEngine (network : INetworkDefinition) (config : IBuilderConfig)
| EvBuildSerializedNetwork (network : INetworkDefinition) (config : IBuilderConfig)
| EvDeserializeCudaEngine (plan : list byte)
| EvSerialize (engine : Engine)
| EvOpen (path mode : string)
| EvWrite (path : string) (data : list byte)
| EvRead (path : string) (data : list byte)
| EvClose (path : string)
| EvAllocateBuffers (engine : Engine)
| EvCreateExecutionContext (engine : Engine)
| EvGetRandomTestcase
| EvCopyto (dst : nat)
| EvDoInference (engine : Engine) (inputs : list (list Scalar))
| EvArgmax (a : list Scalar)
| EvCompare (predicted expected : Z)
| EvPrint (line : string).

Record World : Type := {
  w_trace : list Event;
  w_files : gmap string (list byte);
  w_stdout : list string;
  w_arrays : list (list Scalar);
  w_rand : N
}.

Definition log (e : Event) : Prog World unit :=
  modify (fun w => {| w_trace := w_trace w ++ [e]; w_files := w_files w;
                      w_stdout := w_stdout w; w_arrays := w_arrays w;
                      w_rand := w_rand w |}).

Definition set_files (f : gmap string (list byte) -> gmap string (list byte))
  : Prog World unit :=
  modify (fun w => {| w_trace := w_trace w; w_files := f (w_files w);
                      w_stdout := w_stdout w; w_arrays := w_arrays w;
                      w_rand := w_rand w |}).

Definition set_arrays (f : list (list Scalar) -> list (list Scalar))
  : Prog World unit :=
  modify (fun w => {| w_trace := w_trace w; w_files := w_files w;
                      w_stdout := w_stdout w; w_arrays := f (w_arrays w);
                      w_rand := w_rand w |}).

Definition next_rand : Prog World N :=
  fun w => (Ok (w_rand w),
            {| w_trace := w_trace w; w_files := w_files w;
               w_stdout := w_stdout w; w_arrays := w_arrays w;
               w_rand := N.succ (w_rand w) |}).

Definition print (line : string) : Prog World unit :=
  log (EvPrint line) ;;
  modify (fun w => {| w_trace := w_trace w; w_files := w_files w;
                      w_stdout := w_stdout w ++ [line]; w_arrays := w_arrays w;
                      w_rand := w_rand w |}).

(** [str] of a Python integer. *)
Definition str (z : Z) : string := NilZero.string_of_int (Z.to_int z).

(** *** Files *)

Record File : Type := { f_path : string; f_mode : string }.

(** [open(path, mode)] for the two modes the sample uses: [wb] creates or
    truncates, [rb] needs the file. *)
Definition open_ (path mode : string) : Prog World File :=
  log (EvOpen path mode) ;;
  if String.eqb mode "wb" then
    set_files (fun fs => <[ path := [] ]> fs) ;;
    ret {| f_path := path; f_mode := mode |}
  else if String.eqb mode "rb" then
    w <- get ;;
    match w_files w !! path with
    | Some _ => ret {| f_path := path; f_mode := mode |}
    | None => raise (FileNotFoundError path)
    end
  else raise (ValueError "invalid mode").

Definition write (f : File) (data : list byte) : Prog World unit :=
  if String.eqb (f_mode f) "wb" then
    log (EvWrite (f_path f) data) ;;
    set_files (fun fs => <[ f_path f := default [] (fs !! f_path f) ++ data ]> fs)
  else raise (ValueError "not writable").

(** [f.read()] on a file just opened: the whole contents. *)
Definition read (f : File) : Prog World (list byte) :=
  if String.eqb (f_mode f) "rb" then
    w <- get ;;
    let data := default [] (w_files w !! f_path f) in
    log (EvRead (f_path f) data) ;;
    ret data
  else raise (ValueError "not readable").

Definition close (f : File) : Prog World unit := log (EvClose (f_path f)).

Section Program.

Variable L : Library.

(** *** TensorRT *)

Definition trt_v7 : bool :=
  if String.prefix "7" (trt_version L) then true else false.

Definition trt_Builder : Prog World unit := log EvBuilder.

Definition builder_create_network (flags : Z) : Prog World INetworkDefinition :=
  log (EvCreateNetwork flags) ;; ret (create_network flags).

Definition builder_create_builder_config : Prog World IBuilderConfig :=
  log EvCreateBuilderConfig ;;
  ret {| max_workspace_size := default_workspace_size L |}.

Definition trt_Runtime : Prog World unit := log EvRuntime.

Definition build_engine_call (network : INetworkDefinition) (config : IBuilderConfig)
  : Prog World (option Engine) :=
  log (EvBuildEngine network config) ;;
  ret (builder_build_engine L network config).

Definition build_serialized_network (network : INetworkDefinition)
    (config : IBuilderConfig) : Prog World (option (list byte)) :=
  log (EvBuildSerializedNetwork network config) ;;
  ret (builder_build_serialized_network L network config).

(** [runtime.deserialize_cuda_engine(plan)]: the binding refuses [None]; on
    bytes it cannot read the library returns [None]. *)
Definition deserialize_cuda_engine (plan : option (list byte))
  : Prog World (option Engine) :=
  match plan with
  | None => raise (TypeError "deserialize_cuda_engine")
  | Some data =>
      log (EvDeserializeCudaEngine data) ;;
      ret (runtime_deserialize_cuda_engine L data)
  end.

(** A method call on a variable that holds [None]. *)
Definition the_engine (engine : option Engine) (attr : string) : Prog World Engine :=
  match engine with
  | Some e => ret e
  | None => raise (AttributeError attr)
  end.

Definition serialize (engine : option Engine) : Prog World (list byte) :=
  e <- the_engine engine "serialize" ;;
  log (EvSerialize e) ;;
  ret (engine_serialize L e).

Definition create_execution_context (engine : option Engine)
  : Prog World IExecutionContext :=
  e <- the_engine engine "create_execution_context" ;;
  log (EvCreateExecutionContext e) ;;
  ret {| ctx_engine := e |}.

(** *** The samples' [common] module *)

(** Modelled from the spec: [common.GiB] is not under src/.  The spec has the
    workspace budget "fixed at 1 GiB"; a gibibyte is 2^30 bytes, so [GiB val]
    is [val] gibibytes in bytes. *)
Definition GiB (val : Z) : Z := Z.shiftl val 30.

Definition add_help (description : string) : Prog World unit :=
  log (EvAddHelp description) ;;
  of_result (common_add_help L description).

(** One host array and one device buffer per binding, in binding order. *)
Fixpoint alloc_bindings (bs : list Binding) (arrays : list (list Scalar))
  : list HostDeviceMem * list HostDeviceMem * list nat * list (list Scalar) :=
  match bs with
  | [] => ([], [], [], arrays)
  | b :: bs' =>
      let mem := {| host := length arrays; device := length arrays |} in
      let '(ins, outs, bindings, arrays') :=
        alloc_bindings bs' (arrays ++ [repeat (pagelocked_empty L) (b_size b)]) in
      if b_is_input b
      then (mem :: ins, outs, device mem :: bindings, arrays')
      else (ins, mem :: outs, device mem :: bindings, arrays')
  end.

(** Modelled from the spec: [common.allocate_buffers] is not under src/.
    "[allocate_buffers(engine)] returns host/device buffer pairs sized per the
    engine's binding metadata": the inputs, the outputs, the device addresses
    of all bindings, and a stream. *)
Definition allocate_buffers (engine : option Engine)
  : Prog World (list HostDeviceMem * list HostDeviceMem * list nat * unit) :=
  match engine with
  | None => raise (TypeError "allocate_buffers")
  | Some e =>
      log (EvAllocateBuffers e) ;;
      w <- get ;;
      let '(ins, outs, bindings, arrays') :=
        alloc_bindings (engine_bindings L e) (w_arrays w) in
      set_arrays (fun _ => arrays') ;;
      ret (ins, outs, bindings, tt)
  end.

Definition store_outputs (outputs : list HostDeviceMem) (results : list (list Scalar))
    (arrays : list (list Scalar)) : list (list Scalar) :=
  fold_left (fun arr mo => <[ host (fst mo) := snd mo ]> arr) (combine outputs results) arrays.

(** Modelled from the spec: [common.do_inference_v2] is not under src/.
    "[infer(engine, input) -> output] copies input into the bound input
    buffer, executes synchronously, and returns the output buffer contents":
    the host arrays of the inputs go to the device, the context executes, the
    results come back into the host arrays of the outputs, which are
    returned. *)
Definition do_inference_v2 (context : IExecutionContext) (bindings : list nat)
    (inputs outputs : list HostDeviceMem) (stream : unit) : Prog World (list nat) :=
  w <- get ;;
  let ins := map (fun m => default [] (w_arrays w !! host m)) inputs in
  log (EvDoInference (ctx_engine context) ins) ;;
  results <- of_result (context_execute L (ctx_engine context) ins) ;;
  set_arrays (store_outputs outputs results) ;;
  ret (map host outputs).

(** *** The sample's [model] module *)

Definition MnistModel : Prog World Model :=
  log EvMnistModel ;; of_result (model_MnistModel L).

Definition learn (m : Model) : Prog World Model :=
  log EvLearn ;; of_result (model_learn L m).

Definition get_weights (m : Model) : Prog World Weights :=
  log EvGetWeights ;; of_result (model_get_weights L m).

Definition get_random_testcase (m : Model) : Prog World (list Scalar * Z) :=
  log EvGetRandomTestcase ;;
  r <- next_rand ;;
  of_result (model_get_random_testcase L m r).

(** *** NumPy *)

(** [np.copyto(dst, src)] on flat arrays: [src] must have the length of [dst],
    or length one (it is then broadcast). *)
Definition copyto (dst : nat) (src : list Scalar) : Prog World unit :=
  log (EvCopyto dst) ;;
  w <- get ;;
  match w_arrays w !! dst with
  | None => raise (TypeError "copyto")
  | Some old =>
      if Nat.eqb (length src) (length old) then set_arrays (fun a => <[ dst := src ]> a)
      else match src with
           | [x] => set_arrays (fun a => <[ dst := repeat x (length old) ]> a)
           | _ => raise (ValueError "could not broadcast input array")
           end
  end.

Fixpoint argmax_from (best : Scalar) (best_i i : nat) (xs : list Scalar) : nat :=
  match xs with
  | [] => best_i
  | x :: xs' =>
      if numpy_le L x best then argmax_from best best_i (S i) xs'
      else argmax_from x i (S i) xs'
  end.

(** [np.argmax(a)] for the array at address [a]: the index of the first
    largest entry. *)
Definition argmax (a : nat) : Prog World Z :=
  w <- get ;;
  let xs := default [] (w_arrays w !! a) in
  log (EvArgmax xs) ;;
  match xs with
  | [] => raise (ValueError "attempt to get argmax of an empty sequence")
  | x :: xs' => ret (Z.of_nat (argmax_from x 0 1 xs'))
  end.

(** ** [build_engine] *)

Definition build_engine (weights : Weights) : Prog World (option Engine) :=
  builder <- trt_Builder ;;
  network <- builder_create_network (common_EXPLICIT_BATCH L) ;;
  config <- builder_create_builder_config ;;
  runtime <- trt_Runtime ;;

  (* config.max_workspace_size = common.GiB(1) *)
  let config := {| max_workspace_size := GiB 1 |} in
  (* populate_network(network, weights) *)
  log EvPopulateNetwork ;;
  populated <- on_object network (populate_network weights) ;;
  let network := snd populated in

  if trt_v7 then
    plan <- build_engine_call network config ;;
    ret plan
  else
    plan <- build_serialized_network network config ;;
    deserialize_cuda_engine plan.

(** ** [load_random_test_case] *)

Definition load_random_test_case (model : Model) (pagelocked_buffer : nat)
  : Prog World Z :=
  testcase <- get_random_testcase model ;;
  let img := fst testcase in
  let expected_output := snd testcase in
  copyto pagelocked_buffer img ;;
  ret expected_output.

(** ** [main] *)

(** [inputs[0]]. *)
Definition first_of (inputs : list HostDeviceMem) : Prog World HostDeviceMem :=
  match inputs with
  | m :: _ => ret m
  | [] => raise (IndexError "list index out of range")
  end.

(** [[output] = ...]: the list must hold exactly one element. *)
Definition unpack_one (outs : list nat) : Prog World nat :=
  match outs with
  | [output] => ret output
  | _ => raise (ValueError "unpack")
  end.

Definition main : Prog World unit :=
  add_help "Runs an MNIST network using a PyTorch model" ;;
  mnist_model <- MnistModel ;;
  mnist_model <- learn mnist_model ;;
  weights <- get_weights mnist_model ;;
  engine <- build_engine weights ;;

  f <- open_ "mnist.trt" "wb" ;;
  data <- serialize engine ;;
  write f data ;;
  close f ;;

  f <- open_ "mnist.trt" "rb" ;;
  engine <- trt_Runtime ;;
  data <- read f ;;
  engine <- deserialize_cuda_engine (Some data) ;;
  close f ;;

  buffers <- allocate_buffers engine ;;
  let '(inputs, outputs, bindings, stream) := buffers in
  context <- create_execution_context engine ;;

  input0 <- first_of inputs ;;
  case_num <- load_random_test_case mnist_model (host input0) ;;
  outs <- do_inference_v2 context bindings inputs outputs stream ;;
  output <- unpack_one outs ;;
  pred <- argmax output ;;
  print (String.append "Test Case: " (str case_num)) ;;
  print (String.append "Prediction: " (str pred)).

End Program.

End Sample.

(** ** Reading the graph and the trace *)

Section Reading.

Context {Scalar Engine : Type}.

(** The names [populate_network] looks up, in the order it does. *)
Definition weight_keys : list string :=
  [ "conv1.weight"; "conv1.bias"; "conv2.weight"; "conv2.bias";
    "fc1.weight"; "fc1.bias"; "fc2.weight"; "fc2.bias" ].

(** A Weight Set "containing the named tensors". *)
Definition has_named_tensors (weights : gmap string (@Tensor Scalar)) : Prop :=
  Forall (fun k => is_Some (weights !! k)) weight_keys.

(** The first name of [weight_keys] that the Weight Set lacks. *)
Definition first_absent (weights : gmap string (@Tensor Scalar)) : option string :=
  find (fun k => negb (bool_decide (is_Some (weights !! k)))) weight_keys.

(** The shapes the spec (section 8) gives for the named tensors:
    "20x1x5x5, 20; 50x20x5x5, 50; 500x800, 500; 10x500, 10". *)
Definition expected_shapes : list (string * list Z) :=
  [ ("conv1.weight", [20; 1; 5; 5]); ("conv1.bias", [20]);
    ("conv2.weight", [50; 20; 5; 5]); ("conv2.bias", [50]);
    ("fc1.weight", [500; 800]); ("fc1.bias", [500]);
    ("fc2.weight", [10; 500]); ("fc2.bias", [10]) ].

(** The spec's "absent or shape-mismatched". *)
Definition absent_or_mismatched (weights : gmap string (@Tensor Scalar)) : bool :=
  existsb (fun ks => match weights !! fst ks with
                     | None => true
                     | Some t => negb (bool_decide (t_shape t = snd ks))
                     end) expected_shapes.

(** The graph of the spec (section 4.2), "input, conv(20 filters, 5x5,
    stride 1), maxpool(2x2, stride 2), conv(50 filters, 5x5, stride 1),
    maxpool(2x2, stride 2), fully-connected(500), activation(rectified
    linear), fully-connected(10), output", each layer fed by the one before
    it, over the given weight arrays. *)
Definition fixed_topology (flags : Z)
    (conv1_w conv1_b conv2_w conv2_b fc1_w fc1_b fc2_w fc2_b : @Tensor Scalar)
  : INetworkDefinition :=
  {| net_flags := flags;
     net_inputs := [ {| in_name := "data"; in_dtype := float32;
                        in_shape := [1; 1; 28; 28] |} ];
     net_layers :=
       [ {| l_op := Convolution 20 (5, 5) conv1_w conv1_b; l_input := NetInput 0;
            l_stride := Some (1, 1); l_output_name := None |};
         {| l_op := Pooling MAX (2, 2); l_input := LayerOutput 0 0;
            l_stride := Some (2, 2); l_output_name := None |};
         {| l_op := Convolution 50 (5, 5) conv2_w conv2_b; l_input := LayerOutput 1 0;
            l_stride := Some (1, 1); l_output_name := None |};
         {| l_op := Pooling MAX (2, 2); l_input := LayerOutput 2 0;
            l_stride := Some (2, 2); l_output_name := None |};
         {| l_op := FullyConnected 500 fc1_w fc1_b; l_input := LayerOutput 3 0;
            l_stride := None; l_output_name := None |};
         {| l_op := Activation RELU; l_input := LayerOutput 4 0;
            l_stride := None; l_output_name := None |};
         {| l_op := FullyConnected 10 fc2_w fc2_b; l_input := LayerOutput 5 0;
            l_stride := None; l_output_name := Some "prob" |} ];
     net_outputs := [ LayerOutput 6 0 ] |}.

(** The name of a tensor of the network; [None] stands for a name the sample
    did not give. *)
Definition tensor_name (n : @INetworkDefinition Scalar) (t : ITensor) : option string :=
  match t with
  | NetInput i => in_name <$> net_inputs n !! i
  | LayerOutput h _ => match net_layers n !! h with
                       | Some l => l_output_name l
                       | None => None
                       end
  end.

(** The element type of a tensor.  A convolution, pooling, fully-connected or
    activation layer for which no precision is requested (the sample requests
    none) produces the element type of its input; [fuel] bounds the walk back
    to the network input. *)
Fixpoint dtype_upto (n : @INetworkDefinition Scalar) (fuel : nat) (t : ITensor)
  : option DataType :=
  match t with
  | NetInput i => in_dtype <$> net_inputs n !! i
  | LayerOutput h _ =>
      match fuel with
      | O => None
      | S fuel' => match net_layers n !! h with
                   | Some l => dtype_upto n fuel' (l_input l)
                   | None => None
                   end
      end
  end.

Definition tensor_dtype (n : @INetworkDefinition Scalar) (t : ITensor) : option DataType :=
  dtype_upto n (length (net_layers n)) t.

(** The number of entries per sample of a tensor that a fully-connected layer
    produces: its [num_outputs]. *)
Definition tensor_entries (n : @INetworkDefinition Scalar) (t : ITensor) : option Z :=
  match t with
  | LayerOutput h O =>
      match net_layers n !! h with
      | Some l => match l_op l with
                  | FullyConnected num_outputs _ _ => Some num_outputs
                  | _ => None
                  end
      | None => None
      end
  | _ => None
  end.

(** The stages of the driver that the spec (section 4.5) names. *)
Inductive Stage : Type :=
| Train | ExtractWeights | BuildGraph | CompileEngine | SerializeToDisk
| DeserializeFromDisk | AllocateBuffers | DrawTestCase | RunInference
| ArgMax | Compare | PrintLine.

#[global] Instance Stage_eq_dec : EqDecision Stage.
Proof. solve_decision. Defined.

(** The call that carries out a stage. *)
Definition stage_of (e : @Event Scalar Engine) : option Stage :=
  match e with
  | EvLearn => Some Train
  | EvGetWeights => Some ExtractWeights
  | EvPopulateNetwork => Some BuildGraph
  | EvBuildEngine _ _ | EvBuildSerializedNetwork _ _ => Some CompileEngine
  | EvWrite _ _ => Some SerializeToDisk
  | EvRead _ _ => Some DeserializeFromDisk
  | EvAllocateBuffers _ => Some AllocateBuffers
  | EvGetRandomTestcase => Some DrawTestCase
  | EvDoInference _ _ => Some RunInference
  | EvArgmax _ => Some ArgMax
  | EvCompare _ _ => Some Compare
  | EvPrint _ => Some PrintLine
  | _ => None
  end.

Definition stages (trace : list (@Event Scalar Engine)) : list Stage :=
  omap stage_of trace.

(** The sequence as the spec words it: "train, extract weights, build graph,
    compile engine, serialize to disk, deserialize from disk, allocate
    buffers, draw one random test case, run inference, compare predicted
    class (arg-max of output vector) against expected label, print both", the
    printing being "two lines". *)
Definition spec_pipeline : list Stage :=
  [ Train; ExtractWeights; BuildGraph; CompileEngine; SerializeToDisk;
    DeserializeFromDisk; AllocateBuffers; DrawTestCase; RunInference;
    ArgMax; Compare; PrintLine; PrintLine ].



Definition is_compile (e : @Event Scalar Engine) : bool :=
  match e with
  | EvBuildEngine _ _ | EvBuildSerializedNetwork _ _ => true
  | _ => false
  end.

(** The workspace budget an event hands to the engine compiler, if any. *)
Definition budget_of (e : @Event Scalar Engine) : option Z :=
  match e with
  | EvBuildEngine _ config | EvBuildSerializedNetwork _ config =>
      Some (max_workspace_size config)
  | _ => None
  end.

(** The engine an event allocates for, makes a context of, or runs. *)
Definition engine_used (e : @Event Scalar Engine) : option Engine :=
  match e with
  | EvAllocateBuffers engine | EvCreateExecutionContext engine
  | EvDoInference engine _ => Some engine
  | _ => None
  end.

End Reading.

Section Versions.

Context {Scalar Engine Model : Type}.

(** The same libraries with another TensorRT version string. *)
Definition with_version (version : string) (L : @Library Scalar Engine Model)
  : @Library Scalar Engine Model :=
  {| trt_version := version;
     builder_build_engine := builder_build_engine L;
     builder_build_serialized_network := builder_build_serialized_network L;
     runtime_deserialize_cuda_engine := runtime_deserialize_cuda_engine L;
     engine_serialize := engine_serialize L;
     engine_bindings := engine_bindings L;
     context_execute := context_execute L;
     default_workspace_size := default_workspace_size L;
     model_MnistModel := model_MnistModel L;
     model_learn := model_learn L;
     model_get_weights := model_get_weights L;
     model_get_random_testcase := model_get_random_testcase L;
     common_EXPLICIT_BATCH := common_EXPLICIT_BATCH L;
     common_add_help := common_add_help L;
     numpy_le := numpy_le L;
     pagelocked_empty := pagelocked_empty L |}.

(** The calls [build_engine] makes before it reaches the engine compiler. *)
Definition build_setup (L : @Library Scalar Engine Model) : list (@Event Scalar Engine) :=
  [ EvBuilder; EvCreateNetwork (common_EXPLICIT_BATCH L); EvCreateBuilderConfig;
    EvRuntime; EvPopulateNetwork ].

End Versions.

(** ** Stepping through a statement sequence *)

(** [wp p Q s]: running [p] in state [s] ends in an outcome and a state that
    satisfy [Q]. *)
Definition wp {S A} (p : Prog S A) (Q : result A -> S -> Prop) (s : S) : Prop :=
  Q (fst (p s)) (snd (p s)).

(** The world at process start: nothing has happened, nothing is printed, no
    array is allocated; the files on disk and the state of the random
    generator are the environment's. *)
Definition initial_world {Scalar Engine : Type} (files : gmap string (list byte)) (seed : N)
  : @World Scalar Engine :=
  {| w_trace := []; w_files := files; w_stdout := []; w_arrays := []; w_rand := seed |}.

(** ** A small concrete library, for running the sample *)

Module Toy.

Inductive ToyEngine : Type := Built | Loaded (plan : list byte).

(** An array of the given shape, filled with zeros. *)
Definition zeros (shape : list Z) : @Tensor Z :=
  {| t_shape := shape; t_data := repeat 0 (Z.to_nat (fold_right Z.mul 1 shape)) |}.

Definition weights : gmap string (@Tensor Z) :=
  <[ "conv1.weight" := zeros [20; 1; 5; 5] ]> (
  <[ "conv1.bias" := zeros [20] ]> (
  <[ "conv2.weight" := zeros [50; 20; 5; 5] ]> (
  <[ "conv2.bias" := zeros [50] ]> (
  <[ "fc1.weight" := zeros [500; 800] ]> (
  <[ "fc1.bias" := zeros [500] ]> (
  <[ "fc2.weight" := zeros [10; 500] ]> (
  <[ "fc2.bias" := zeros [10] ]> ∅))))))).

(** [weights] without one of the names. *)
Definition lacking : gmap string (@Tensor Z) := delete "fc1.bias" weights.

(** [weights] with a first kernel of the wrong shape. *)
Definition misshapen : gmap string (@Tensor Z) :=
  <[ "conv1.weight" := zeros [3] ]> weights.

(** The graph the sample builds from [weights]. *)
Definition network : @INetworkDefinition Z :=
  fixed_topology 1
    (zeros [20; 1; 5; 5]) (zeros [20]) (zeros [50; 20; 5; 5]) (zeros [50])
    (zeros [500; 800]) (zeros [500]) (zeros [10; 500]) (zeros [10]).

Definition scores : list Z := [0; 1; 0; 9; 2; 0; 0; 9; 0; 0].

Definition lib (version : string) : @Library Z ToyEngine unit :=
  {| trt_version := version;
     builder_build_engine := fun _ _ => Some Built;
     builder_build_serialized_network := fun _ _ => Some [x54; x52; x54];
     runtime_deserialize_cuda_engine :=
       fun plan => match plan with [] => None | _ => Some (Loaded plan) end;
     engine_serialize := fun _ => [x6d; x6e];
     engine_bindings := fun _ => [ {| b_is_input := true; b_size := 784 |};
                                   {| b_is_input := false; b_size := 10 |} ];
     context_execute := fun _ _ => Ok [scores];
     default_workspace_size := 0;
     model_MnistModel := Ok tt;
     model_learn := fun m => Ok m;
     model_get_weights := fun _ => Ok weights;
     model_get_random_testcase := fun _ r => Ok (repeat 0 784%nat, Z.of_N r);
     common_EXPLICIT_BATCH := 1;
     common_add_help := fun _ => Ok tt;
     numpy_le := Z.leb;
     pagelocked_empty := 0 |}.

End Toy.

(** How many layers [populate_network] has added by the time it looks a name
    up: both arrays of a layer are looked up before the layer is added. *)
Definition layers_before (k : string) : nat :=
  if String.eqb k "conv1.weight" || String.eqb k "conv1.bias" then 0
  else if String.eqb k "conv2.weight" || String.eqb k "conv2.bias" then 2
  else if String.eqb k "fc1.weight" || String.eqb k "fc1.bias" then 4
  else 6.

(** ** More small libraries and worlds, for the failing runs *)

Module ToyCases.

(** [Toy.lib] with the given outcomes of the two compile calls, the given
    Weight Set and the given test image. *)
Definition make (version : string) (engine : option Toy.ToyEngine)
    (plan : option (list byte)) (weights : gmap string (@Tensor Z)) (image : list Z)
  : @Library Z Toy.ToyEngine unit :=
  {| trt_version := version;
     builder_build_engine := fun _ _ => engine;
     builder_build_serialized_network := fun _ _ => plan;
     runtime_deserialize_cuda_engine := runtime_deserialize_cuda_engine (Toy.lib version);
     engine_serialize := engine_serialize (Toy.lib version);
     engine_bindings := engine_bindings (Toy.lib version);
     context_execute := context_execute (Toy.lib version);
     default_workspace_size := 0;
     model_MnistModel := Ok tt;
     model_learn := fun m => Ok m;
     model_get_weights := fun _ => Ok weights;
     model_get_random_testcase := fun _ r => Ok (image, Z.of_N r);
     common_EXPLICIT_BATCH := 1;
     common_add_help := fun _ => Ok tt;
     numpy_le := Z.leb;
     pagelocked_empty := 0 |}.

(** The engine compiler fails, under either version. *)
Definition no_engine (version : string) : @Library Z Toy.ToyEngine unit :=
  make version None None Toy.weights (repeat 0 784%nat).

(** The trained model lacks "fc1.bias". *)
Definition lacking_weights : @Library Z Toy.ToyEngine unit :=
  make "8.0.1" (Some Toy.Built) (Some [x54; x52; x54]) Toy.lacking (repeat 0 784%nat).

(** The test images have four entries. *)
Definition small_image : @Library Z Toy.ToyEngine unit :=
  make "8.0.1" (Some Toy.Built) (Some [x54; x52; x54]) Toy.weights [1; 2; 3; 4].

(** A disk that already holds an engine file and another file. *)
Definition disk : gmap string (list byte) :=
  <[ "mnist.trt" := [x01; x02; x03] ]> (<[ "notes.txt" := [x68; x69] ]> ∅).

(** A world with one page-locked array of four entries. *)
Definition world : @World Z Toy.ToyEngine :=
  {| w_trace := []; w_files := disk; w_stdout := []; w_arrays := [[0; 0; 0; 0]];
     w_rand := 5 |}.

End ToyCases.

(** * Properties *)

(** ** [populate_network] *)

Section PopulateNetwork.

Context {Scalar : Type}.
Implicit Types (weights : gmap string (@Tensor Scalar)) (flags : Z).

Lemma has_named_tensors_lookup weights :
  has_named_tensors weights ->
  exists conv1_w conv1_b conv2_w conv2_b fc1_w fc1_b fc2_w fc2_b,
    weights !! "conv1.weight" = Some conv1_w /\ weights !! "conv1.bias" = Some conv1_b /\
    weights !! "conv2.weight" = Some conv2_w /\ weights !! "conv2.bias" = Some conv2_b /\
    weights !! "fc1.weight" = Some fc1_w /\ weights !! "fc1.bias" = Some fc1_b /\
    weights !! "fc2.weight" = Some fc2_w /\ weights !! "fc2.bias" = Some fc2_b.
Proof.
  unfold has_named_tensors, weight_keys. intros H.
  repeat match goal with
         | H : Forall _ (_ :: _) |- _ =>
             let Hx := fresh "Hx" in
             apply Forall_cons in H as [[? Hx] H]
         end.
  do 8 eexists. repeat split; eassumption.
Qed.

(** With the eight arrays in the Weight Set, the calls go through and leave
    the graph of the spec. *)
Lemma populate_network_run weights flags
    conv1_w conv1_b conv2_w conv2_b fc1_w fc1_b fc2_w fc2_b :
  weights !! "conv1.weight" = Some conv1_w -> weights !! "conv1.bias" = Some conv1_b ->
  weights !! "conv2.weight" = Some conv2_w -> weights !! "conv2.bias" = Some conv2_b ->
  weights !! "fc1.weight" = Some fc1_w -> weights !! "fc1.bias" = Some fc1_b ->
  weights !! "fc2.weight" = Some fc2_w -> weights !! "fc2.bias" = Some fc2_b ->
  populate_network weights (create_network flags)
  = (Ok tt, fixed_topology flags conv1_w conv1_b conv2_w conv2_b fc1_w fc1_b fc2_w fc2_b).
Proof.
  intros H1 H2 H3 H4 H5 H6 H7 H8.
  unfold populate_network, getitem, bind.
  rewrite H1, H2, H3, H4, H5, H6, H7, H8.
  reflexivity.
Qed.

(** A missing name stops [populate_network] with [KeyError] on the first name
    it cannot find; no output has been marked by then. *)
Lemma populate_network_absent weights flags k :
  first_absent weights = Some k ->
  exists partial,
    populate_network weights (create_network flags) = (Raise (KeyError k), partial) /\
    map in_name (net_inputs partial) = ["data"] /\ net_outputs partial = [].
Proof.
  unfold first_absent, weight_keys, populate_network, getitem, bind. cbn [find].
  repeat match goal with
         | |- context [ bool_decide (is_Some (weights !! ?key)) ] =>
             destruct (weights !! key) eqn:?; cbn [bool_decide negb];
             [ rewrite bool_decide_eq_true_2 by eauto; cbn [negb]
             | rewrite bool_decide_eq_false_2 by (intros [? ?]; discriminate); cbn [negb];
               intros [= <-]; eexists; split; [ reflexivity | split; reflexivity ] ]
         end.
  discriminate.
Qed.

Lemma first_absent_None weights :
  first_absent weights = None <-> has_named_tensors weights.
Proof.
  unfold first_absent, has_named_tensors. split.
  - intros H. apply Forall_forall. intros k Hk.
    destruct (weights !! k) eqn:E; [ eauto | exfalso ].
    apply list_elem_of_In in Hk.
    eapply find_none in H; [ | exact Hk ]. cbn in H.
    rewrite E in H. rewrite bool_decide_eq_false_2 in H by (intros [? ?]; discriminate).
    discriminate.
  - intros H. destruct (find _ _) eqn:E; [ | reflexivity ].
    apply find_some in E as [Hin Hb]. apply list_elem_of_In in Hin.
    rewrite Forall_forall in H. specialize (H _ Hin).
    rewrite bool_decide_eq_true_2 in Hb by exact H. discriminate.
Qed.

Lemma first_absent_Some weights k :
  first_absent weights = Some k -> k ∈ weight_keys /\ weights !! k = None.
Proof.
  unfold first_absent. intros E. apply find_some in E as [Hin Hb].
  split; [ apply list_elem_of_In; exact Hin | ].
  destruct (weights !! k) eqn:E; [ | reflexivity ].
  rewrite bool_decide_eq_true_2 in Hb by eauto. discriminate.
Qed.

(** A run that ends well had the eight names. *)
Lemma populate_network_Ok_inv weights flags net :
  populate_network weights (create_network flags) = (Ok tt, net) ->
  has_named_tensors weights.
Proof.
  intros H. apply first_absent_None.
  destruct (first_absent weights) as [k|] eqn:E; [ exfalso | reflexivity ].
  destruct (populate_network_absent weights flags k E) as (partial & Hp & _).
  rewrite Hp in H. discriminate.
Qed.

End PopulateNetwork.

Section PopulateNetworkClaims.

Context {Scalar : Type}.
Implicit Types (weights : gmap string (@Tensor Scalar)) (flags : Z).

(** How [populate_network] ends on a fresh network, whatever the Weight Set
    holds. *)
Lemma populate_network_cases weights flags r net :
  populate_network weights (create_network flags) = (r, net) ->
  (exists conv1_w conv1_b conv2_w conv2_b fc1_w fc1_b fc2_w fc2_b,
      r = Ok tt /\
      net = fixed_topology flags conv1_w conv1_b conv2_w conv2_b fc1_w fc1_b fc2_w fc2_b)
  \/ (exists k, r = Raise (KeyError k) /\ first_absent weights = Some k /\
                map in_name (net_inputs net) = ["data"] /\ net_outputs net = []).
Proof.
  intros Hrun. destruct (first_absent weights) as [k|] eqn:E.
  - right. destruct (populate_network_absent weights flags k E) as (p & Hp & Hi & Ho).
    rewrite Hp in Hrun. injection Hrun as <- <-. eauto.
  - left. apply first_absent_None, has_named_tensors_lookup in E.
    destruct E as (c1w & c1b & c2w & c2b & f1w & f1b & f2w & f2b
                   & H1 & H2 & H3 & H4 & H5 & H6 & H7 & H8).
    rewrite (populate_network_run weights flags _ _ _ _ _ _ _ _ H1 H2 H3 H4 H5 H6 H7 H8)
      in Hrun.
    injection Hrun as <- <-. do 8 eexists. split; reflexivity.
Qed.

(** C2.  For every Weight Set that contains the eight named tensors,
    [populate_network] on a fresh network ends without an exception and
    leaves exactly: the input, a convolution with 20 filters, kernel 5x5 and
    stride 1, a 2x2 max-pool with stride 2, a convolution with 50 filters,
    kernel 5x5 and stride 1, a 2x2 max-pool with stride 2, a fully-connected
    layer with 500 outputs, a rectified-linear activation, a fully-connected
    layer with 10 outputs, and the marked output, each layer reading the
    output of the one before and holding the arrays found under its names.
    The result is a function of the Weight Set and the flags alone. *)
Theorem populate_network_fixed_layer_sequence weights flags :
  has_named_tensors weights ->
  exists conv1_w conv1_b conv2_w conv2_b fc1_w fc1_b fc2_w fc2_b,
    (weights !! "conv1.weight" = Some conv1_w /\ weights !! "conv1.bias" = Some conv1_b /\
     weights !! "conv2.weight" = Some conv2_w /\ weights !! "conv2.bias" = Some conv2_b /\
     weights !! "fc1.weight" = Some fc1_w /\ weights !! "fc1.bias" = Some fc1_b /\
     weights !! "fc2.weight" = Some fc2_w /\ weights !! "fc2.bias" = Some fc2_b) /\
    populate_network weights (create_network flags)
    = (Ok tt,
       fixed_topology flags conv1_w conv1_b conv2_w conv2_b fc1_w fc1_b fc2_w fc2_b).
Proof.
  intros H. apply has_named_tensors_lookup in H.
  destruct H as (c1w & c1b & c2w & c2b & f1w & f1b & f2w & f2b
                 & H1 & H2 & H3 & H4 & H5 & H6 & H7 & H8).
  exists c1w, c1b, c2w, c2b, f1w, f1b, f2w, f2b. split.
  - repeat split; assumption.
  - apply populate_network_run; assumption.
Qed.

(** C8.  Whatever way [populate_network] ends on a fresh network, one input
    has been added and it is named "data"; when it ends well one output has
    been marked and it is named "prob", and when it raises none has been
    marked. *)
Theorem populate_network_single_bindings weights flags r net :
  populate_network weights (create_network flags) = (r, net) ->
  map in_name (net_inputs net) = ["data"] /\
  map (tensor_name net) (net_outputs net) = (if is_Ok r then [Some "prob"] else []) /\
  length (net_inputs net) = 1%nat /\
  length (net_outputs net) = (if is_Ok r then 1%nat else 0%nat).
Proof.
  intros Hrun. apply populate_network_cases in Hrun.
  destruct Hrun as [(c1w & c1b & c2w & c2b & f1w & f1b & f2w & f2b & -> & ->)
                   | (k & -> & _ & Hi & Ho)].
  - repeat split; reflexivity.
  - rewrite Ho. cbn. repeat split; try reflexivity.
    + exact Hi.
    + rewrite <- (length_map in_name), Hi. reflexivity.
Qed.

(** C5.  The boundary of the network is fixed by constants: [ModelData] holds
    the input shape 1x1x28x28, the element type float32 and the output size
    10, and every graph [populate_network] completes has the single input
    "data" of that shape and type and a single output, which is a float32
    tensor of 10 entries. *)
Theorem boundary_shapes_fixed weights flags net :
  populate_network weights (create_network flags) = (Ok tt, net) ->
  (ModelData.INPUT_SHAPE = [1; 1; 28; 28] /\ ModelData.DTYPE = float32 /\
   ModelData.OUTPUT_SIZE = 10) /\
  net_inputs net = [ {| in_name := "data"; in_dtype := ModelData.DTYPE;
                        in_shape := ModelData.INPUT_SHAPE |} ] /\
  exists out, net_outputs net = [out] /\
              tensor_entries net out = Some ModelData.OUTPUT_SIZE /\
              tensor_dtype net out = Some ModelData.DTYPE.
Proof.
  intros Hrun. apply populate_network_cases in Hrun.
  destruct Hrun as [(c1w & c1b & c2w & c2b & f1w & f1b & f2w & f2b & _ & ->)
                   | (k & [=] & _)].
  split; [ repeat split | split; [ reflexivity | ] ].
  exists (LayerOutput 6 0). repeat split.
Qed.

End PopulateNetworkClaims.

Lemma populate_network_fixed_layer_sequence_witness :
  has_named_tensors Toy.weights /\
  exists conv1_w conv1_b conv2_w conv2_b fc1_w fc1_b fc2_w fc2_b,
    (Toy.weights !! "conv1.weight" = Some conv1_w /\
     Toy.weights !! "conv1.bias" = Some conv1_b /\
     Toy.weights !! "conv2.weight" = Some conv2_w /\
     Toy.weights !! "conv2.bias" = Some conv2_b /\
     Toy.weights !! "fc1.weight" = Some fc1_w /\
     Toy.weights !! "fc1.bias" = Some fc1_b /\
     Toy.weights !! "fc2.weight" = Some fc2_w /\
     Toy.weights !! "fc2.bias" = Some fc2_b) /\
    populate_network Toy.weights (create_network 1)
    = (Ok tt,
       fixed_topology 1 conv1_w conv1_b conv2_w conv2_b fc1_w fc1_b fc2_w fc2_b).
Proof.
  assert (H : has_named_tensors Toy.weights).
  { unfold has_named_tensors, weight_keys. repeat constructor; eexists; reflexivity. }
  split; [ exact H | exact (populate_network_fixed_layer_sequence Toy.weights 1 H) ].
Defined.

Lemma populate_network_single_bindings_witness :
  populate_network Toy.weights (create_network 1) = (Ok tt, Toy.network) /\
  map in_name (net_inputs Toy.network) = ["data"] /\
  map (tensor_name Toy.network) (net_outputs Toy.network) = [Some "prob"] /\
  length (net_inputs Toy.network) = 1%nat /\
  length (net_outputs Toy.network) = 1%nat.
Proof.
  assert (H : populate_network Toy.weights (create_network 1) = (Ok tt, Toy.network))
    by reflexivity.
  split; [ exact H | exact (populate_network_single_bindings Toy.weights 1 _ _ H) ].
Defined.

Lemma boundary_shapes_fixed_witness :
  populate_network Toy.weights (create_network 1) = (Ok tt, Toy.network) /\
  exists out, net_outputs Toy.network = [out] /\
              tensor_entries Toy.network out = Some 10 /\
              tensor_dtype Toy.network out = Some float32.
Proof.
  assert (H : populate_network Toy.weights (create_network 1) = (Ok tt, Toy.network))
    by reflexivity.
  split; [ exact H | exact (proj2 (proj2 (boundary_shapes_fixed Toy.weights 1 _ H))) ].
Defined.

(** ** Rules for stepping *)

Lemma wp_elim {S A} (p : Prog S A) Q s : wp p Q s -> Q (fst (p s)) (snd (p s)).
Proof. auto. Qed.

Lemma wp_bind {S A B} (p : Prog S A) (k : A -> Prog S B) Q s :
  wp p (fun r s' => match r with
                    | Ok a => wp (k a) Q s'
                    | Raise e => Q (Raise e) s'
                    end) s ->
  wp (bind p k) Q s.
Proof. unfold wp, bind. destruct (p s) as [[a|e] s']; auto. Qed.

Lemma wp_ret {S A} (a : A) Q (s : S) : Q (Ok a) s -> wp (ret a) Q s.
Proof. auto. Qed.

Lemma wp_raise {S A} e (Q : result A -> S -> Prop) s : Q (Raise e) s -> wp (raise e) Q s.
Proof. auto. Qed.

Lemma wp_get {S} Q (s : S) : Q (Ok s) s -> wp get Q s.
Proof. auto. Qed.

Lemma wp_modify {S} (f : S -> S) Q s : Q (Ok tt) (f s) -> wp (modify f) Q s.
Proof. auto. Qed.

Lemma wp_of_result {S A} (r : result A) Q (s : S) : Q r s -> wp (of_result r) Q s.
Proof. auto. Qed.

Lemma wp_on_object {S T A} (obj : T) (p : Prog T A) Q (s : S) :
  match p obj with
  | (Ok a, obj') => Q (Ok (a, obj')) s
  | (Raise e, _) => Q (Raise e) s
  end ->
  wp (on_object obj p) Q s.
Proof. unfold wp, on_object. destruct (p obj) as [[a|e] obj']; auto. Qed.

Ltac head_of t := lazymatch t with ?f _ => head_of f | _ => t end.

Ltac wp_tidy :=
  cbv beta iota;
  cbn [w_trace w_files w_stdout w_arrays w_rand app fst snd f_path f_mode ctx_engine host];
  rewrite ?lookup_insert_eq;
  cbn [default from_option id app].

(** One statement, one rule; a call into a library splits on its outcome. *)
Ltac wp_step :=
  lazymatch goal with
  | |- wp (bind _ _) _ _ => apply wp_bind
  | |- wp (ret _) _ _ => apply wp_ret
  | |- wp (raise _) _ _ => apply wp_raise
  | |- wp get _ _ => apply wp_get
  | |- wp (modify _) _ _ => apply wp_modify
  | |- wp (of_result _) _ _ => apply wp_of_result
  | |- wp (on_object _ _) _ _ => apply wp_on_object
  | |- wp (if String.eqb ?a ?b then _ else _) _ _ =>
      let v := eval vm_compute in (String.eqb a b) in
      change (String.eqb a b) with v
  | |- wp (if ?b then _ else _) _ _ => destruct b eqn:?
  | |- wp (match ?x with _ => _ end) _ _ => destruct x eqn:?
  | |- wp (fun _ => _) _ _ => unfold wp at 1
  | |- wp ?p _ _ => let h := head_of p in unfold h at 1
  | |- match ?x with _ => _ end => destruct x eqn:?
  end; wp_tidy.

Ltac wp_start p s := pattern (fst (p s)), (snd (p s)); apply wp_elim.

Ltac wp_run p s := wp_start p s; unfold initial_world; repeat wp_step.

(** ** [build_engine] *)

Section BuildEngine.

Context {Scalar Engine Model : Type}.
Implicit Types (L : @Library Scalar Engine Model)
  (weights : gmap string (@Tensor Scalar)) (world : @World Scalar Engine).

(** What a call of [build_engine] returns and what it adds to the trace. *)
Lemma build_engine_run L weights world :
  let config := {| max_workspace_size := GiB 1 |} in
  match populate_network weights (create_network (common_EXPLICIT_BATCH L)) with
  | (Raise e, _) =>
      fst (build_engine L weights world) = Raise e /\
      w_trace (snd (build_engine L weights world)) = w_trace world ++ build_setup L
  | (Ok _, network) =>
      if trt_v7 L then
        fst (build_engine L weights world) = Ok (builder_build_engine L network config) /\
        w_trace (snd (build_engine L weights world))
        = w_trace world ++ build_setup L ++ [EvBuildEngine network config]
      else
        match builder_build_serialized_network L network config with
        | Some plan =>
            fst (build_engine L weights world) = Ok (runtime_deserialize_cuda_engine L plan) /\
            w_trace (snd (build_engine L weights world))
            = w_trace world ++ build_setup L
              ++ [EvBuildSerializedNetwork network config; EvDeserializeCudaEngine plan]
        | None =>
            fst (build_engine L weights world) = Raise (TypeError "deserialize_cuda_engine") /\
            w_trace (snd (build_engine L weights world))
            = w_trace world ++ build_setup L ++ [EvBuildSerializedNetwork network config]
        end
  end.
Proof.
  intros config. subst config.
  wp_run (build_engine L weights) world.
  all: rewrite <- ?app_assoc; split; reflexivity.
Qed.

Lemma trt_v7_with_version L version :
  trt_v7 (with_version version L) = String.prefix "7" version.
Proof. unfold trt_v7. cbn. destruct (String.prefix "7" version); reflexivity. Qed.

(** C6.  Every call of [build_engine] hands the engine compiler a workspace
    budget of [GiB 1], that is 2^30 bytes: the budgets passed during the call
    are that one value, once, when the graph could be built, and none when it
    could not; and in a whole run of [main] no other budget reaches the
    compiler. *)
Theorem build_engine_workspace_budget L weights world files seed :
  GiB 1 = 2 ^ 30 /\
  (exists evs,
      w_trace (snd (build_engine L weights world)) = w_trace world ++ evs /\
      omap budget_of evs
      = if is_Ok (fst (populate_network weights (create_network (common_EXPLICIT_BATCH L))))
        then [2 ^ 30] else []) /\
  Forall (eq (2 ^ 30))
    (omap budget_of (w_trace (snd (main L (initial_world files seed))))).
Proof.
  split; [ reflexivity | split ].
  - pose proof (build_engine_run L weights world) as H. cbv zeta in H.
    destruct (populate_network weights (create_network (common_EXPLICIT_BATCH L)))
      as [[[]|err] network]; cbn [fst is_Ok].
    + destruct (trt_v7 L).
      * destruct H as [_ ->]. eexists. split; [ reflexivity | ]. reflexivity.
      * destruct (builder_build_serialized_network L network _);
          destruct H as [_ ->]; (eexists; split; [ reflexivity | ]); reflexivity.
    + destruct H as [_ ->]. eexists. split; [ reflexivity | ]. reflexivity.
  - wp_run (main L) (@initial_world Scalar Engine files seed).
    all: vm_compute; repeat constructor.
Qed.

(** C9 (as amended).  [build_engine] gives back what the library gives it,
    under either version, be it an engine or [None]; only a serialized
    network that is [None] makes it raise, under a version other than 7.
    For a Weight Set with the eight names, the graph [network] that
    [populate_network] builds and the configuration with the 2^30 budget are
    the same whatever the version; when the version string starts with "7"
    the call returns [builder.build_engine(network, config)], otherwise it
    returns [runtime.deserialize_cuda_engine] of
    [builder.build_serialized_network(network, config)]; and the one compile
    call of either branch carries that same graph and that same budget. *)
Theorem build_engine_branches_agree L weights world version7 version8 :
  String.prefix "7" version7 = true ->
  String.prefix "7" version8 = false ->
  has_named_tensors weights ->
  exists network config,
    populate_network weights (create_network (common_EXPLICIT_BATCH L)) = (Ok tt, network) /\
    max_workspace_size config = 2 ^ 30 /\
    fst (build_engine (with_version version7 L) weights world)
    = Ok (builder_build_engine L network config) /\
    fst (build_engine (with_version version8 L) weights world)
    = match builder_build_serialized_network L network config with
      | Some plan => Ok (runtime_deserialize_cuda_engine L plan)
      | None => Raise (TypeError "deserialize_cuda_engine")
      end /\
    (exists evs, w_trace (snd (build_engine (with_version version7 L) weights world))
                 = w_trace world ++ evs /\
                 filter (fun e => is_compile e) evs = [EvBuildEngine network config]) /\
    (exists evs, w_trace (snd (build_engine (with_version version8 L) weights world))
                 = w_trace world ++ evs /\
                 filter (fun e => is_compile e) evs
                 = [EvBuildSerializedNetwork network config]).
Proof.
  intros H7 H8 Hnamed.
  apply has_named_tensors_lookup in Hnamed.
  destruct Hnamed as (c1w & c1b & c2w & c2b & f1w & f1b & f2w & f2b
                      & H1 & H2 & H3 & H4 & H5 & H6 & H9 & H10).
  pose proof (populate_network_run weights (common_EXPLICIT_BATCH L)
                _ _ _ _ _ _ _ _ H1 H2 H3 H4 H5 H6 H9 H10) as Hrun.
  eexists _, {| max_workspace_size := GiB 1 |}.
  split; [ exact Hrun | ]. split; [ reflexivity | ].
  pose proof (build_engine_run (with_version version7 L) weights world) as B7.
  pose proof (build_engine_run (with_version version8 L) weights world) as B8.
  cbv zeta in B7, B8. rewrite trt_v7_with_version in B7, B8.
  cbn [with_version common_EXPLICIT_BATCH builder_build_engine
       builder_build_serialized_network runtime_deserialize_cuda_engine] in B7, B8.
  rewrite Hrun in B7, B8. rewrite H7 in B7. rewrite H8 in B8.
  destruct B7 as [R7 T7]. split; [ exact R7 | ].
  destruct (builder_build_serialized_network L _ _) as [plan|];
    destruct B8 as [R8 T8]; (split; [ exact R8 | ]).
  all: split; eexists; (split; [ eassumption | reflexivity ]).
Qed.

(** C4 (as amended).  When one of the eight names is absent,
    [populate_network] raises [KeyError] on the first absent name and
    [build_engine] stops with it, having made no call to the engine compiler.
    When the eight names are present [populate_network] ends well: it does
    not look at the shapes of the arrays. *)
Theorem populate_network_missing_tensor L weights world :
  match first_absent weights with
  | Some k =>
      (k ∈ weight_keys /\ weights !! k = None) /\
      fst (populate_network weights (create_network (common_EXPLICIT_BATCH L)))
      = Raise (KeyError k) /\
      fst (build_engine L weights world) = Raise (KeyError k) /\
      exists evs, w_trace (snd (build_engine L weights world)) = w_trace world ++ evs /\
                  existsb (fun e => is_compile e) evs = false
  | None =>
      has_named_tensors weights /\
      fst (populate_network weights (create_network (common_EXPLICIT_BATCH L))) = Ok tt
  end.
Proof.
  destruct (first_absent weights) as [k|] eqn:E.
  - split; [ exact (first_absent_Some weights k E) | ].
    destruct (populate_network_absent weights (common_EXPLICIT_BATCH L) k E)
      as (partial & Hp & _).
    pose proof (build_engine_run L weights world) as H. cbv zeta in H.
    rewrite Hp in H. destruct H as [R T]. rewrite Hp.
    split; [ reflexivity | ]. split; [ exact R | ].
    eexists. split; [ exact T | reflexivity ].
  - apply first_absent_None in E. split; [ exact E | ].
    apply has_named_tensors_lookup in E.
    destruct E as (c1w & c1b & c2w & c2b & f1w & f1b & f2w & f2b
                   & H1 & H2 & H3 & H4 & H5 & H6 & H7 & H8).
    rewrite (populate_network_run weights _ _ _ _ _ _ _ _ _ H1 H2 H3 H4 H5 H6 H7 H8).
    reflexivity.
Qed.

End BuildEngine.

(** ** [main] *)

Section Main.

Context {Scalar Engine Model : Type}.
Variable L : @Library Scalar Engine Model.
Implicit Types (files : gmap string (list byte)) (seed : N).

Ltac in_list := repeat first [ left; reflexivity | right ].



Ltac use_eqs Hb :=
  repeat (match goal with H : _ = _ |- _ => rewrite H in Hb end; cbv beta iota in Hb).

(** C10.  The engine for which [main] allocates buffers, of which it makes
    the execution context and which it runs is the one the library gives back
    for the bytes read from "mnist.trt"; those are the bytes written to
    "mnist.trt", the serialization of the engine that [build_engine]
    returned.  The engine that [build_engine] returned is serialized and not
    used again. *)
Theorem main_runs_reloaded_engine files seed engine :
  In (Some engine) (map engine_used (w_trace (snd (main L (initial_world files seed))))) ->
  exists model weights built,
    model_get_weights L model = Ok weights /\
    (forall world, fst (build_engine L weights world) = Ok (Some built)) /\
    In (EvSerialize built) (w_trace (snd (main L (initial_world files seed)))) /\
    In (EvWrite "mnist.trt" (engine_serialize L built))
       (w_trace (snd (main L (initial_world files seed)))) /\
    In (EvRead "mnist.trt" (engine_serialize L built))
       (w_trace (snd (main L (initial_world files seed)))) /\
    w_files (snd (main L (initial_world files seed))) !! "mnist.trt"
    = Some (engine_serialize L built) /\
    runtime_deserialize_cuda_engine L (engine_serialize L built) = Some engine.
Proof.
  wp_run (main L) (@initial_world Scalar Engine files seed).
  all: intros H; cbn [map engine_used] in H.
  all: repeat (destruct H as [H|H]; [ try discriminate H | ]); try contradiction.
  all: injection H as <-.
  all: match goal with
       | Hw : model_get_weights L ?m = Ok ?w |- _ => exists m, w
       end.
  all: match goal with
       | Hd : runtime_deserialize_cuda_engine L (engine_serialize L ?b) = Some _ |- _ =>
           exists b
       end.
  all: split; [ assumption | ].
  all: split;
    [ intros world;
      lazymatch goal with
      | |- fst (build_engine _ ?w _) = _ => pose proof (build_engine_run L w world) as Hb
      end;
      cbv zeta in Hb; use_eqs Hb; exact (proj1 Hb) | ].
  all: split; [ in_list | ].
  all: split; [ in_list | ].
  all: split; [ in_list | ].
  all: split; [ reflexivity | assumption ].
Qed.

End Main.

(** ** The sample run on the small library *)

(** A whole run, call by call: TensorRT 8, no file on disk, the random
    generator at 7. *)
Example toy_run_trace :
  w_trace (snd (main (Toy.lib "8.0.1") (initial_world ∅ 7)))
  = [ EvAddHelp "Runs an MNIST network using a PyTorch model";
      EvMnistModel; EvLearn; EvGetWeights;
      EvBuilder; EvCreateNetwork 1; EvCreateBuilderConfig; EvRuntime;
      EvPopulateNetwork;
      EvBuildSerializedNetwork Toy.network {| max_workspace_size := 1073741824 |};
      EvDeserializeCudaEngine [x54; x52; x54];
      EvOpen "mnist.trt" "wb";
      EvSerialize (Toy.Loaded [x54; x52; x54]);
      EvWrite "mnist.trt" [x6d; x6e];
      EvClose "mnist.trt";
      EvOpen "mnist.trt" "rb";
      EvRuntime;
      EvRead "mnist.trt" [x6d; x6e];
      EvDeserializeCudaEngine [x6d; x6e];
      EvClose "mnist.trt";
      EvAllocateBuffers (Toy.Loaded [x6d; x6e]);
      EvCreateExecutionContext (Toy.Loaded [x6d; x6e]);
      EvGetRandomTestcase;
      EvCopyto 0;
      EvDoInference (Toy.Loaded [x6d; x6e]) [repeat 0 784%nat];
      EvArgmax Toy.scores;
      EvPrint "Test Case: 7";
      EvPrint "Prediction: 3" ].
Proof. reflexivity. Qed.

(** A trace can hold the stage [Compare]: with a comparison between the
    arg-max and the printing, the stages are those of the spec. *)
Example comparing_trace_stages :
  @stages Z Toy.ToyEngine
    [ EvLearn; EvGetWeights; EvPopulateNetwork;
      EvBuildSerializedNetwork Toy.network {| max_workspace_size := 1073741824 |};
      EvWrite "mnist.trt" [x6d; x6e]; EvRead "mnist.trt" [x6d; x6e];
      EvAllocateBuffers (Toy.Loaded [x6d; x6e]); EvGetRandomTestcase;
      EvDoInference (Toy.Loaded [x6d; x6e]) [repeat 0 784%nat];
      EvArgmax Toy.scores; EvCompare 3 7;
      EvPrint "Test Case: 7"; EvPrint "Prediction: 3" ]
  = spec_pipeline.
Proof. reflexivity. Qed.



(** C4, as stated, fails: a Weight Set whose "conv1.weight" has shape (3)
    instead of (20, 1, 5, 5) is shape-mismatched, and [populate_network]
    builds the graph from it all the same. *)
Lemma populate_network_accepts_shape_mismatch :
  absent_or_mismatched Toy.misshapen = true /\
  t_shape <$> Toy.misshapen !! "conv1.weight" = Some [3] /\
  is_Ok (fst (populate_network Toy.misshapen (create_network 1))) = true.
Proof. repeat split; reflexivity. Qed.

Lemma populate_network_missing_tensor_witness :
  first_absent Toy.lacking = Some "fc1.bias" /\
  fst (populate_network Toy.lacking (create_network 1)) = Raise (KeyError "fc1.bias") /\
  fst (build_engine (Toy.lib "8.0.1") Toy.lacking (initial_world ∅ 0))
  = Raise (KeyError "fc1.bias").
Proof.
  pose proof (populate_network_missing_tensor (Toy.lib "8.0.1") Toy.lacking
                (initial_world ∅ 0)) as H.
  assert (E : first_absent Toy.lacking = Some "fc1.bias") by reflexivity.
  rewrite E in H. destruct H as (_ & Hp & Hb & _).
  exact (conj E (conj Hp Hb)).
Defined.

Lemma build_engine_workspace_budget_witness :
  omap budget_of (w_trace (snd (build_engine (Toy.lib "8.0.1") Toy.weights
                                  (initial_world ∅ 0))))
  = [1073741824] /\
  Forall (eq 1073741824)
    (omap budget_of (w_trace (snd (main (Toy.lib "8.0.1") (initial_world ∅ 0))))).
Proof.
  pose proof (build_engine_workspace_budget (Toy.lib "8.0.1") Toy.weights
                (initial_world ∅ 0) ∅ 0) as (_ & _ & Hmain).
  split; [ reflexivity | exact Hmain ].
Defined.

(** C9, as stated, fails: with an engine compiler that fails, the version-7
    branch returns [None], which is no engine, and the other branch raises
    [TypeError]; the two are not equivalent. *)
Lemma build_engine_branches_diverge :
  has_named_tensors Toy.weights /\
  fst (build_engine (ToyCases.no_engine "7.2.1") Toy.weights (initial_world ∅ 0))
  = Ok None /\
  fst (build_engine (ToyCases.no_engine "8.0.1") Toy.weights (initial_world ∅ 0))
  = Raise (TypeError "deserialize_cuda_engine").
Proof.
  split; [ | split; reflexivity ].
  unfold has_named_tensors, weight_keys. repeat constructor; eexists; reflexivity.
Qed.

Lemma build_engine_branches_agree_witness :
  String.prefix "7" "7.2.1" = true /\ String.prefix "7" "8.0.1" = false /\
  has_named_tensors Toy.weights /\
  fst (build_engine (with_version "7.2.1" (Toy.lib "")) Toy.weights (initial_world ∅ 0))
  = Ok (Some Toy.Built) /\
  fst (build_engine (with_version "8.0.1" (Toy.lib "")) Toy.weights (initial_world ∅ 0))
  = Ok (Some (Toy.Loaded [x54; x52; x54])).
Proof.
  assert (H7 : String.prefix "7" "7.2.1" = true) by reflexivity.
  assert (H8 : String.prefix "7" "8.0.1" = false) by reflexivity.
  assert (Hn : has_named_tensors Toy.weights).
  { unfold has_named_tensors, weight_keys. repeat constructor; eexists; reflexivity. }
  destruct (build_engine_branches_agree (Toy.lib "") Toy.weights (initial_world ∅ 0)
              "7.2.1" "8.0.1" H7 H8 Hn)
    as (network & config & _ & _ & R7 & R8 & _).
  exact (conj H7 (conj H8 (conj Hn (conj R7 R8)))).
Defined.

Lemma main_runs_reloaded_engine_witness :
  In (Some (Toy.Loaded [x6d; x6e]))
     (map engine_used (w_trace (snd (main (Toy.lib "8.0.1") (initial_world ∅ 7))))) /\
  exists built,
    built = Toy.Loaded [x54; x52; x54] /\
    (forall world, fst (build_engine (Toy.lib "8.0.1") Toy.weights world) = Ok (Some built)) /\
    In (EvSerialize built) (w_trace (snd (main (Toy.lib "8.0.1") (initial_world ∅ 7)))) /\
    runtime_deserialize_cuda_engine (Toy.lib "8.0.1")
      (engine_serialize (Toy.lib "8.0.1") built)
    = Some (Toy.Loaded [x6d; x6e]).
Proof.
  assert (H : In (Some (Toy.Loaded [x6d; x6e]))
                (map engine_used
                   (w_trace (snd (main (Toy.lib "8.0.1") (initial_world ∅ 7)))))).
  { rewrite toy_run_trace. cbn [map engine_used In]. tauto. }
  destruct (main_runs_reloaded_engine (Toy.lib "8.0.1") ∅ 7 _ H)
    as (model & weights & built & Hw & Hb & Hs & _ & _ & _ & Hd).
  injection Hw as <-.
  split; [ exact H | ]. exists built.
  assert (E : built = Toy.Loaded [x54; x52; x54]).
  { specialize (Hb (initial_world ∅ 7)). injection Hb as Hb. symmetry. exact Hb. }
  split; [ exact E | ]. split; [ exact Hb | ]. split; [ exact Hs | exact Hd ].
Defined.

(** * Further properties of the sample's functions *)

(** ** [populate_network], beyond a fresh network and a full Weight Set *)

Section PopulateNetworkMore.

Context {Scalar : Type}.
Implicit Types (weights : gmap string (@Tensor Scalar)) (flags : Z).

Lemma lookup_app_length {A} (l : list A) (x : A) : (l ++ [x]) !! length l = Some x.
Proof. induction l; cbn; auto. Qed.

Lemma insert_app_length {A} (l : list A) (x y : A) :
  <[ length l := y ]> (l ++ [x]) = l ++ [y].
Proof. induction l; cbn; [ reflexivity | f_equal; auto ]. Qed.

(** X1.  [populate_network] only appends.  On a network that already holds
    inputs, layers and outputs it leaves them as they are, adds its input
    after the inputs, its seven layers after the layers and its output after
    the outputs, and wires the new layers to the new input and to each other;
    the flags are kept. *)
Theorem populate_network_appends weights (net0 : @INetworkDefinition Scalar)
    conv1_w conv1_b conv2_w conv2_b fc1_w fc1_b fc2_w fc2_b :
  weights !! "conv1.weight" = Some conv1_w -> weights !! "conv1.bias" = Some conv1_b ->
  weights !! "conv2.weight" = Some conv2_w -> weights !! "conv2.bias" = Some conv2_b ->
  weights !! "fc1.weight" = Some fc1_w -> weights !! "fc1.bias" = Some fc1_b ->
  weights !! "fc2.weight" = Some fc2_w -> weights !! "fc2.bias" = Some fc2_b ->
  let m := length (net_inputs net0) in
  let n := length (net_layers net0) in
  populate_network weights net0
  = (Ok tt,
     {| net_flags := net_flags net0;
        net_inputs := net_inputs net0
                      ++ [ {| in_name := "data"; in_dtype := float32;
                              in_shape := [1; 1; 28; 28] |} ];
        net_layers := net_layers net0 ++
          [ {| l_op := Convolution 20 (5, 5) conv1_w conv1_b; l_input := NetInput m;
               l_stride := Some (1, 1); l_output_name := None |};
            {| l_op := Pooling MAX (2, 2); l_input := LayerOutput n 0;
               l_stride := Some (2, 2); l_output_name := None |};
            {| l_op := Convolution 50 (5, 5) conv2_w conv2_b;
               l_input := LayerOutput (n + 1) 0;
               l_stride := Some (1, 1); l_output_name := None |};
            {| l_op := Pooling MAX (2, 2); l_input := LayerOutput (n + 2) 0;
               l_stride := Some (2, 2); l_output_name := None |};
            {| l_op := FullyConnected 500 fc1_w fc1_b; l_input := LayerOutput (n + 3) 0;
               l_stride := None; l_output_name := None |};
            {| l_op := Activation RELU; l_input := LayerOutput (n + 4) 0;
               l_stride := None; l_output_name := None |};
            {| l_op := FullyConnected 10 fc2_w fc2_b; l_input := LayerOutput (n + 5) 0;
               l_stride := None; l_output_name := Some "prob" |} ];
        net_outputs := net_outputs net0 ++ [ LayerOutput (n + 6) 0 ] |}).
Proof.
  intros H1 H2 H3 H4 H5 H6 H7 H8 m n. subst m n.
  destruct net0 as [flags ins ls outs].
  unfold populate_network, getitem, bind.
  rewrite H1, H2, H3, H4, H5, H6, H7, H8.
  unfold add_input, add_convolution, add_pooling, add_fully_connected, add_activation,
    add_layer, set_stride, set_name, mark_output, the_tensor, get_output, set_layers,
    bind, ret, raise.
  cbn [net_flags net_inputs net_layers net_outputs fst snd default_stride l_stride l_op
       l_input l_output_name].
  repeat (rewrite ?lookup_app_length, ?insert_app_length;
          cbn [net_flags net_inputs net_layers net_outputs fst snd default_stride
               l_stride l_op l_input l_output_name]).
  rewrite !length_app. cbn [length]. rewrite <- !app_assoc. cbn [app].
  replace (length ls + 1 + 1 + 1 + 1 + 1 + 1)%nat with (length ls + 6)%nat by lia.
  replace (length ls + 1 + 1 + 1 + 1 + 1)%nat with (length ls + 5)%nat by lia.
  replace (length ls + 1 + 1 + 1 + 1)%nat with (length ls + 4)%nat by lia.
  replace (length ls + 1 + 1 + 1)%nat with (length ls + 3)%nat by lia.
  replace (length ls + 1 + 1)%nat with (length ls + 2)%nat by lia.
  reflexivity.
Qed.

(** X2.  [populate_network] is not all-or-nothing.  When it stops on an
    absent name the network keeps what was added before that look-up: the
    input, and the layers of the earlier stages with their strides set; no
    layer of the stage whose array is absent, and no output. *)
Theorem populate_network_partial_graph weights flags k :
  first_absent weights = Some k ->
  fst (populate_network weights (create_network flags)) = Raise (KeyError k) /\
  net_inputs (snd (populate_network weights (create_network flags)))
  = [ {| in_name := "data"; in_dtype := float32; in_shape := [1; 1; 28; 28] |} ] /\
  length (net_layers (snd (populate_network weights (create_network flags))))
  = layers_before k /\
  map l_input (net_layers (snd (populate_network weights (create_network flags))))
  = take (layers_before k)
      [ NetInput 0; LayerOutput 0 0; LayerOutput 1 0; LayerOutput 2 0 ;
        LayerOutput 3 0; LayerOutput 4 0 ] /\
  map l_stride (net_layers (snd (populate_network weights (create_network flags))))
  = take (layers_before k)
      [ Some (1, 1); Some (2, 2); Some (1, 1); Some (2, 2); None; None ] /\
  net_outputs (snd (populate_network weights (create_network flags))) = [].
Proof.
  unfold first_absent, weight_keys, populate_network, getitem, bind. cbn [find].
  repeat match goal with
         | |- context [ bool_decide (is_Some (weights !! ?key)) ] =>
             destruct (weights !! key) eqn:?; cbn [bool_decide negb];
             [ rewrite bool_decide_eq_true_2 by eauto; cbn [negb]
             | rewrite bool_decide_eq_false_2 by (intros [? ?]; discriminate); cbn [negb];
               intros [= <-]; repeat split; reflexivity ]
         end.
  discriminate.
Qed.

End PopulateNetworkMore.

Lemma populate_network_appends_witness :
  populate_network Toy.weights Toy.network
  = (Ok tt,
     {| net_flags := 1;
        net_inputs := net_inputs Toy.network ++ net_inputs Toy.network;
        net_layers := net_layers Toy.network ++
          [ {| l_op := Convolution 20 (5, 5) (Toy.zeros [20; 1; 5; 5]) (Toy.zeros [20]);
               l_input := NetInput 1;
               l_stride := Some (1, 1); l_output_name := None |};
            {| l_op := Pooling MAX (2, 2); l_input := LayerOutput 7 0;
               l_stride := Some (2, 2); l_output_name := None |};
            {| l_op := Convolution 50 (5, 5) (Toy.zeros [50; 20; 5; 5]) (Toy.zeros [50]);
               l_input := LayerOutput 8 0;
               l_stride := Some (1, 1); l_output_name := None |};
            {| l_op := Pooling MAX (2, 2); l_input := LayerOutput 9 0;
               l_stride := Some (2, 2); l_output_name := None |};
            {| l_op := FullyConnected 500 (Toy.zeros [500; 800]) (Toy.zeros [500]);
               l_input := LayerOutput 10 0;
               l_stride := None; l_output_name := None |};
            {| l_op := Activation RELU; l_input := LayerOutput 11 0;
               l_stride := None; l_output_name := None |};
            {| l_op := FullyConnected 10 (Toy.zeros [10; 500]) (Toy.zeros [10]);
               l_input := LayerOutput 12 0;
               l_stride := None; l_output_name := Some "prob" |} ];
        net_outputs := [ LayerOutput 6 0; LayerOutput 13 0 ] |}).
Proof.
  exact (populate_network_appends Toy.weights Toy.network _ _ _ _ _ _ _ _
           eq_refl eq_refl eq_refl eq_refl eq_refl eq_refl eq_refl eq_refl).
Defined.

Lemma populate_network_partial_graph_witness :
  first_absent Toy.lacking = Some "fc1.bias" /\
  fst (populate_network Toy.lacking (create_network 1)) = Raise (KeyError "fc1.bias") /\
  length (net_layers (snd (populate_network Toy.lacking (create_network 1)))) = 4%nat /\
  map l_stride (net_layers (snd (populate_network Toy.lacking (create_network 1))))
  = [ Some (1, 1); Some (2, 2); Some (1, 1); Some (2, 2) ].
Proof.
  assert (E : first_absent Toy.lacking = Some "fc1.bias") by reflexivity.
  destruct (populate_network_partial_graph Toy.lacking 1 _ E)
    as (Hr & _ & Hn & _ & Hs & _).
  exact (conj E (conj Hr (conj Hn Hs))).
Defined.

(** ** [build_engine], [load_random_test_case] and [main]: effects and failures *)

Section DriverMore.

Context {Scalar Engine Model : Type}.
Variable L : @Library Scalar Engine Model.
Implicit Types (files : gmap string (list byte)) (seed : N)
  (weights : gmap string (@Tensor Scalar)) (world : @World Scalar Engine).

(** Two outcomes of one call are the same outcome. *)
Ltac same_call :=
  repeat match goal with
         | H1 : ?x = _, H2 : ?x = _ |- _ =>
             rewrite H1 in H2;
             first [ discriminate H2
                   | injection H2; clear H2; intros; subst
                   | clear H2 ]
         end.

(** X3.  [load_random_test_case] returns the label of the test case the model
    draws and leaves its image in the buffer it was given, when the image has
    the length of the buffer; no other array, no file and no console line is
    touched. *)
Theorem load_random_test_case_copies (model : Model) (buffer : nat) world
    (img old : list Scalar) (label : Z) :
  model_get_random_testcase L model (w_rand world) = Ok (img, label) ->
  w_arrays world !! buffer = Some old ->
  length img = length old ->
  fst (load_random_test_case L model buffer world) = Ok label /\
  w_arrays (snd (load_random_test_case L model buffer world)) !! buffer = Some img /\
  (forall other, other <> buffer ->
     w_arrays (snd (load_random_test_case L model buffer world)) !! other
     = w_arrays world !! other) /\
  w_files (snd (load_random_test_case L model buffer world)) = w_files world /\
  w_stdout (snd (load_random_test_case L model buffer world)) = w_stdout world.
Proof.
  intros Hdraw Hbuf Hlen.
  wp_run (load_random_test_case L model buffer) world.
  all: simplify_eq; cbn [fst snd] in *.
  all: try match goal with
           | H : (_ =? _)%nat = false |- _ =>
               exfalso; apply Nat.eqb_neq in H; apply H; subst; assumption
           end.
  split; [ reflexivity | ]. split.
  - apply list_lookup_insert_eq. eapply lookup_lt_Some; eassumption.
  - split; [ | split; reflexivity ].
    intros other Hother. apply list_lookup_insert_ne. congruence.
Qed.

Ltac rewrite_outcomes R :=
  repeat (match goal with H : _ = _ |- _ => rewrite H in R end; cbv beta iota in R).

(** What [build_engine_run] says in a leaf of the run of [main], set against
    the hypothesis [Hb] on how [build_engine] ends. *)
Ltac build_fact Hb R :=
  lazymatch type of Hb with
  | forall w, fst (build_engine _ ?weights w) = _ =>
      pose proof (build_engine_run L weights (@initial_world Scalar Engine ∅ 0%N)) as R;
      cbv zeta in R; rewrite_outcomes R; rewrite Hb in R; destruct R as [R _]
  end.

Ltac refute_build Hb := let R := fresh "R" in build_fact Hb R; discriminate R.

(** X4.  When [build_engine] returns [None] (the library could not build, or
    could not read back, the engine), [main] stops with [AttributeError] at
    [engine.serialize()].  By then it has opened "mnist.trt" for writing: the
    file is left empty, whatever it held, and is not closed; nothing is
    printed. *)
Theorem main_engine_None files seed (model0 model : Model) weights :
  common_add_help L "Runs an MNIST network using a PyTorch model" = Ok tt ->
  model_MnistModel L = Ok model0 ->
  model_learn L model0 = Ok model ->
  model_get_weights L model = Ok weights ->
  (forall world, fst (build_engine L weights world) = Ok None) ->
  fst (main L (initial_world files seed)) = Raise (AttributeError "serialize") /\
  w_files (snd (main L (initial_world files seed))) = <[ "mnist.trt" := [] ]> files /\
  last (w_trace (snd (main L (initial_world files seed)))) = Some (EvOpen "mnist.trt" "wb") /\
  w_stdout (snd (main L (initial_world files seed))) = [].
Proof.
  intros Hhelp Hmodel Hlearn Hweights Hb.
  wp_run (main L) (@initial_world Scalar Engine files seed).
  all: simplify_eq; same_call.
  all: first [ solve [ repeat split; reflexivity ] | refute_build Hb ].
Qed.

(** X5.  When [build_engine] raises (an absent weight name, or a serialized
    network that is [None] under a version other than 7), [main] stops with
    that exception before it opens any file: the disk is as it was, and
    nothing is printed. *)
Theorem main_build_engine_raises files seed (model0 model : Model) weights (e : Exn) :
  common_add_help L "Runs an MNIST network using a PyTorch model" = Ok tt ->
  model_MnistModel L = Ok model0 ->
  model_learn L model0 = Ok model ->
  model_get_weights L model = Ok weights ->
  (forall world, fst (build_engine L weights world) = Raise e) ->
  fst (main L (initial_world files seed)) = Raise e /\
  w_files (snd (main L (initial_world files seed))) = files /\
  w_stdout (snd (main L (initial_world files seed))) = [].
Proof.
  intros Hhelp Hmodel Hlearn Hweights Hb.
  wp_run (main L) (@initial_world Scalar Engine files seed).
  all: simplify_eq; same_call.
  all: first [ refute_build Hb
             | let R := fresh "R" in
               build_fact Hb R; injection R as ->; repeat split; reflexivity ].
Qed.

(** X6.  [main] prints only at its very end: a run that stops on an
    exception, at whatever call, has printed nothing. *)
Theorem main_prints_nothing_on_exception files seed (e : Exn) :
  fst (main L (initial_world files seed)) = Raise e ->
  w_stdout (snd (main L (initial_world files seed))) = [].
Proof.
  wp_run (main L) (@initial_world Scalar Engine files seed).
  all: intros H; first [ discriminate H | reflexivity ].
Qed.

(** X7.  The only file [main] ever touches is "mnist.trt": every other path
    holds at the end what it held at the start, however the run ends. *)
Theorem main_other_files_untouched files seed (path : string) :
  path <> "mnist.trt" ->
  w_files (snd (main L (initial_world files seed))) !! path = files !! path.
Proof.
  intros Hpath.
  wp_run (main L) (@initial_world Scalar Engine files seed).
  all: rewrite ?lookup_insert_ne by congruence; reflexivity.
Qed.

(** X8.  [main] writes to disk only after the engine compiler has been
    called: a run in which no compile call was made (training, weight
    extraction or graph building failed) leaves the whole disk, "mnist.trt"
    included, as it was. *)
Theorem main_disk_untouched_before_compile files seed :
  existsb (fun e => is_compile e) (w_trace (snd (main L (initial_world files seed)))) = false ->
  w_files (snd (main L (initial_world files seed))) = files.
Proof.
  wp_run (main L) (@initial_world Scalar Engine files seed).
  all: cbn [existsb is_compile orb]; intros H; first [ discriminate H | reflexivity ].
Qed.

(** X9.  What the engine runs on is the test case that was drawn: in any run
    that reaches the inference, the first input array handed to the execution
    is the image that [get_random_testcase] returned for the trained model
    (or that image repeated, when it is a single number broadcast over the
    buffer), and when the run ends well the label of that same test case is
    what the first printed line, "Test Case", shows; a run that stops after
    the inference has printed nothing. *)
Theorem main_infers_on_drawn_image files seed (engine : Engine)
    (ins : list (list Scalar)) :
  In (EvDoInference engine ins) (w_trace (snd (main L (initial_world files seed)))) ->
  exists (model0 model : Model) img label first rest,
    model_MnistModel L = Ok model0 /\
    model_learn L model0 = Ok model /\
    model_get_random_testcase L model seed = Ok (img, label) /\
    ins = first :: rest /\
    (first = img \/ exists x, img = [x] /\ first = repeat x (length first)) /\
    match fst (main L (initial_world files seed)) with
    | Ok _ =>
        exists second,
          w_stdout (snd (main L (initial_world files seed)))
          = [ String.append "Test Case: " (str label); second ]
    | Raise _ => w_stdout (snd (main L (initial_world files seed))) = []
    end.
Proof.
  wp_run (main L) (@initial_world Scalar Engine files seed).
  all: intros H; cbn [In] in H.
  all: repeat (destruct H as [H|H]; [ try discriminate H | ]); try contradiction.
  all: injection H as <- <-.
  all: match goal with
       | Hl : model_learn L ?m0 = Ok ?m,
         Hd : model_get_random_testcase L ?m _ = Ok ?t |- _ =>
           exists m0, m, (fst t), (snd t); destruct t; cbn [fst snd] in *
       end.
  all: cbn [map]; do 2 eexists.
  all: do 3 (split; [ first [ assumption | reflexivity ] | ]).
  all: split; [ reflexivity | ].
  all: rewrite list_lookup_insert_eq by (eapply lookup_lt_Some; eassumption).
  all: cbn [default from_option id].
  all: split;
    [ first [ left; reflexivity
            | right; eexists; split; [ eassumption | ];
              rewrite repeat_length; reflexivity ] | ].
  all: first [ reflexivity | eexists; reflexivity ].
Qed.

End DriverMore.

(** ** These properties on the small libraries *)

Lemma load_random_test_case_copies_witness :
  fst (load_random_test_case ToyCases.small_image tt 0 ToyCases.world) = Ok 5 /\
  w_arrays (snd (load_random_test_case ToyCases.small_image tt 0 ToyCases.world)) !! 0%nat
  = Some [1; 2; 3; 4].
Proof.
  destruct (load_random_test_case_copies ToyCases.small_image tt 0 ToyCases.world
              [1; 2; 3; 4] [0; 0; 0; 0] 5 eq_refl eq_refl eq_refl)
    as (Hr & Ha & _).
  exact (conj Hr Ha).
Defined.

Lemma main_engine_None_witness :
  (forall world, fst (build_engine (ToyCases.no_engine "7.2.1") Toy.weights world) = Ok None) /\
  fst (main (ToyCases.no_engine "7.2.1") (initial_world ToyCases.disk 0))
  = Raise (AttributeError "serialize") /\
  w_files (snd (main (ToyCases.no_engine "7.2.1") (initial_world ToyCases.disk 0)))
    !! "mnist.trt" = Some [] /\
  w_files (snd (main (ToyCases.no_engine "7.2.1") (initial_world ToyCases.disk 0)))
    !! "notes.txt" = Some [x68; x69].
Proof.
  assert (Hb : forall world,
             fst (build_engine (ToyCases.no_engine "7.2.1") Toy.weights world) = Ok None)
    by (intros world; reflexivity).
  destruct (main_engine_None (ToyCases.no_engine "7.2.1") ToyCases.disk 0 tt tt Toy.weights
              eq_refl eq_refl eq_refl eq_refl Hb) as (Hr & Hf & _).
  split; [ exact Hb | ]. split; [ exact Hr | ].
  rewrite Hf. split; reflexivity.
Defined.

Lemma main_build_engine_raises_witness :
  (forall world, fst (build_engine (ToyCases.no_engine "8.0.1") Toy.weights world)
                 = Raise (TypeError "deserialize_cuda_engine")) /\
  fst (main (ToyCases.no_engine "8.0.1") (initial_world ToyCases.disk 0))
  = Raise (TypeError "deserialize_cuda_engine") /\
  w_files (snd (main (ToyCases.no_engine "8.0.1") (initial_world ToyCases.disk 0)))
  = ToyCases.disk.
Proof.
  assert (Hb : forall world,
             fst (build_engine (ToyCases.no_engine "8.0.1") Toy.weights world)
             = Raise (TypeError "deserialize_cuda_engine"))
    by (intros world; reflexivity).
  destruct (main_build_engine_raises (ToyCases.no_engine "8.0.1") ToyCases.disk 0 tt tt
              Toy.weights _ eq_refl eq_refl eq_refl eq_refl Hb) as (Hr & Hf & _).
  exact (conj Hb (conj Hr Hf)).
Defined.

Lemma main_prints_nothing_on_exception_witness :
  fst (main ToyCases.lacking_weights (initial_world ∅ 0)) = Raise (KeyError "fc1.bias") /\
  w_stdout (snd (main ToyCases.lacking_weights (initial_world ∅ 0))) = [].
Proof.
  assert (H : fst (main ToyCases.lacking_weights (initial_world ∅ 0))
              = Raise (KeyError "fc1.bias")) by reflexivity.
  exact (conj H (main_prints_nothing_on_exception ToyCases.lacking_weights ∅ 0 _ H)).
Defined.

Lemma main_other_files_untouched_witness :
  "notes.txt" <> "mnist.trt" /\
  w_files (snd (main (Toy.lib "8.0.1") (initial_world ToyCases.disk 7))) !! "notes.txt"
  = Some [x68; x69].
Proof.
  assert (H : "notes.txt" <> "mnist.trt") by discriminate.
  split; [ exact H | ].
  rewrite (main_other_files_untouched (Toy.lib "8.0.1") ToyCases.disk 7 "notes.txt" H).
  reflexivity.
Defined.

Lemma main_disk_untouched_before_compile_witness :
  existsb (fun e => is_compile e)
    (w_trace (snd (main ToyCases.lacking_weights (initial_world ToyCases.disk 0)))) = false /\
  w_files (snd (main ToyCases.lacking_weights (initial_world ToyCases.disk 0)))
  = ToyCases.disk.
Proof.
  assert (H : existsb (fun e => is_compile e)
                (w_trace (snd (main ToyCases.lacking_weights
                                 (initial_world ToyCases.disk 0)))) = false)
    by reflexivity.
  exact (conj H (main_disk_untouched_before_compile ToyCases.lacking_weights
                   ToyCases.disk 0 H)).
Defined.

Lemma main_infers_on_drawn_image_witness :
  In (EvDoInference (Toy.Loaded [x6d; x6e]) [repeat 0 784%nat])
     (w_trace (snd (main (Toy.lib "8.0.1") (initial_world ∅ 7)))) /\
  exists (model0 model : unit) img label first rest,
    model_MnistModel (Toy.lib "8.0.1") = Ok model0 /\
    model_learn (Toy.lib "8.0.1") model0 = Ok model /\
    model_get_random_testcase (Toy.lib "8.0.1") model 7 = Ok (img, label) /\
    [repeat 0 784%nat] = first :: rest /\
    (first = img \/ exists x, img = [x] /\ first = repeat x (length first)) /\
    exists second,
      w_stdout (snd (main (Toy.lib "8.0.1") (initial_world ∅ 7)))
      = [ String.append "Test Case: " (str label); second ].
Proof.
  assert (H : In (EvDoInference (Toy.Loaded [x6d; x6e]) [repeat 0 784%nat])
                (w_trace (snd (main (Toy.lib "8.0.1") (initial_world ∅ 7))))).
  { rewrite toy_run_trace. cbn [In]. tauto. }
  exact (conj H (main_infers_on_drawn_image (Toy.lib "8.0.1") ∅ 7 _ _ H)).
Defined.
